(** * SwiftScope tool stub: [tools/claude_tool_stub.py]

    A shallow embedding of [ios_debug_command], the helper that turns a
    debugger action and its optional fields into a JSON payload and posts it
    to the ios-LLDB HTTP surface, and of [main], the command line entry
    point that calls it, together with the properties of the validation, of
    the single HTTP exchange and of what a run of [main] shows. *)

From Stdlib Require Import ZArith Floats.PrimFloat.
From stdpp Require Import base option list strings gmap pretty.

Set Warnings "-register-all,-clear-no-such-hyp".

Local Open Scope Z_scope.
Local Open Scope string_scope.

(** ** Python values *)

(** The values the function stores in its payload dictionary: a [str], an
    [int], or [None]. *)
Inductive value : Type :=
| VNone
| VStr (s : string)
| VInt (n : Z).

#[global] Instance value_eq_dec : EqDecision value.
Proof. solve_decision. Defined.

(** An [Optional[str]] or [Optional[int]] argument seen as a Python value. *)
Definition of_str (o : option string) : value :=
  match o with Some s => VStr s | None => VNone end.

Definition of_int (o : option Z) : value :=
  match o with Some n => VInt n | None => VNone end.

(** Python truthiness of an [Optional[str]]: [None] and the empty string are
    falsy, every other string is truthy. *)
Definition truthy (o : option string) : bool :=
  match o with
  | Some (String _ _) => true
  | _ => false
  end.

(** [x is None]. *)
Definition is_None {A} (o : option A) : bool :=
  match o with None => true | Some _ => false end.

(** ** Arguments of [ios_debug_command] *)

(** The optional keyword arguments that may end up in the payload. *)
Record Fields : Type := mkFields {
  file : option string;
  line : option Z;
  expression : option string;
  variables_reference : option Z;
  thread_id : option Z
}.

(** The keyword arguments that say where the request goes and how long the
    client waits. *)
Record Endpoint : Type := mkEndpoint {
  host : string;
  port : Z;
  timeout : float
}.

Definition no_fields : Fields := mkFields None None None None None.

(** The defaults of the signature: [host="127.0.0.1"], [port=4000],
    [timeout=5.0]. *)
Definition default_endpoint : Endpoint := mkEndpoint "127.0.0.1" 4000 5%float.

(** ** The HTTP library seen from the function *)

(** The keyword arguments of [requests.post]: the URL, the [json=] payload
    and the [timeout=] bound. *)
Record Request : Type := mkRequest {
  url : string;
  json : gmap string value;
  req_timeout : float
}.

(** A response object: its status code and its body. *)
Record Response : Type := mkResponse {
  status_code : Z;
  text : string
}.

(** A decoded JSON document, what [resp.json()] returns. *)
Inductive json_value : Type :=
| JNull
| JBool (b : bool)
| JInt (n : Z)
| JString (s : string)
| JArray (l : list json_value)
| JObject (l : list (string * json_value)).

(** The ways [requests.post] can fail to deliver a response: the connection
    cannot be established, or the timeout bound elapses (while connecting or
    while waiting for the answer). *)
Inductive transport_failure : Type :=
| ConnectionError
| ConnectTimeout
| ReadTimeout.

(** The exceptions that can leave the function: the [ValueError] of the
    validation, and the library's [RequestException]s. *)
Inductive exn : Type :=
| ValueError (msg : string)
| RequestFailed (why : transport_failure)
| HTTPError (resp : Response)
| JSONDecodeError (resp : Response).

(** ** Programs that call the HTTP library

    The function is sequential code that either returns, raises, or calls
    into [requests]: [requests.post(...)], answered with a response object,
    and [resp.json()], answered with the decoded body. *)
Inductive Prog (A : Type) : Type :=
| Ret (a : A)
| Raise (e : exn)
| Post (rq : Request) (k : Response → Prog A)
| Json (resp : Response) (k : json_value → Prog A).

Arguments Ret {A} a.
Arguments Raise {A} e.
Arguments Post {A} rq k.
Arguments Json {A} resp k.

Fixpoint prog_bind {A B} (f : A → Prog B) (p : Prog A) : Prog B :=
  match p with
  | Ret a => f a
  | Raise e => Raise e
  | Post rq k => Post rq (λ resp, prog_bind f (k resp))
  | Json resp k => Json resp (λ v, prog_bind f (k v))
  end.

#[global] Instance prog_mret : MRet Prog := λ A, @Ret A.
#[global] Instance prog_mbind : MBind Prog := λ A B, @prog_bind A B.

Definition requests_post (u : string) (payload : gmap string value)
    (t : float) : Prog Response :=
  Post (mkRequest u payload t) Ret.

Definition resp_json (resp : Response) : Prog json_value :=
  Json resp Ret.

(** The statuses the [requests] library treats as errors: client errors
    (400 to 499) and server errors (500 to 599). *)
Definition error_status (resp : Response) : bool :=
  ((400 <=? status_code resp) && (status_code resp <? 600))%Z.

(** [resp.raise_for_status()] of the [requests] library: it raises
    [HTTPError], carrying the response, when the status is an error status,
    and returns otherwise. *)
Definition raise_for_status (resp : Response) : Prog unit :=
  if error_status resp then Raise (HTTPError resp) else Ret tt.

(** ** The function *)

(** The set literal [{"evaluate", "evaluate_swift", "watch_expr"}]. *)
Definition expression_actions : gset string :=
  {[ "evaluate"; "evaluate_swift"; "watch_expr" ]}.

(** Lines 32 to 47: the payload is created with the action and filled by
    four consecutive [if] statements, each of which may raise. *)
Definition build (action : string) (f : Fields) : Prog (gmap string value) :=
  let payload : gmap string value := {[ "action" := VStr action ]} in
  payload ←
    (if bool_decide (action = "set_breakpoint") then
       if negb (truthy (file f)) || is_None (line f) then
         Raise (ValueError "set_breakpoint requires --file and --line")
       else
         let payload := <[ "file" := of_str (file f) ]> payload in
         let payload := <[ "line" := of_int (line f) ]> payload in
         Ret payload
     else Ret payload);
  payload ←
    (if bool_decide (action ∈ expression_actions) then
       if negb (truthy (expression f)) then
         Raise (ValueError (action +:+ " requires --expression"))
       else
         Ret (<[ "expression" := of_str (expression f) ]> payload)
     else Ret payload);
  payload ←
    (if bool_decide (action = "variables")
          && negb (is_None (variables_reference f)) then
       Ret (<[ "variablesReference" := of_int (variables_reference f) ]>
              payload)
     else Ret payload);
  payload ←
    (if bool_decide (action = "select_thread") then
       if is_None (thread_id f) then
         Raise (ValueError "select_thread requires --thread-id")
       else
         Ret (<[ "threadId" := of_int (thread_id f) ]> payload)
     else Ret payload);
  Ret payload.

(** The f-string [f"http://{host}:{port}/command"]. *)
Definition command_url (e : Endpoint) : string :=
  "http://" +:+ host e +:+ ":" +:+ pretty (port e) +:+ "/command".

(** Lines 32 to 53. *)
Definition ios_debug_command (action : string) (f : Fields) (e : Endpoint)
    : Prog json_value :=
  payload ← build action f;
  resp ← requests_post (command_url e) payload (timeout e);
  raise_for_status resp;;
  resp_json resp.

(** ** Running a program against the outside world *)

(** The world answers the two library calls: the network either delivers a
    response or fails, and the JSON decoder either decodes a body or does
    not. *)
Record World : Type := mkWorld {
  net : Request → transport_failure + Response;
  loads : string → option json_value
}.

(** What an observer of the library sees. *)
Inductive event : Type :=
| EPost (rq : Request)
| EJson (resp : Response).

(** [run w p] is the trace of library calls of [p] in the world [w], and
    how [p] ends: with an exception or with a value. *)
Fixpoint run {A} (w : World) (p : Prog A) : list event * (exn + A) :=
  match p with
  | Ret a => ([], inr a)
  | Raise e => ([], inl e)
  | Post rq k =>
      match net w rq with
      | inl why => ([EPost rq], inl (RequestFailed why))
      | inr resp => let '(t, r) := run w (k resp) in (EPost rq :: t, r)
      end
  | Json resp k =>
      match loads w (text resp) with
      | None => ([EJson resp], inl (JSONDecodeError resp))
      | Some v => let '(t, r) := run w (k v) in (EJson resp :: t, r)
      end
  end.

(** The payloads that went over the wire, in order. *)
Definition posted_payloads (t : list event) : list (gmap string value) :=
  omap (λ ev, match ev with EPost rq => Some (json rq) | EJson _ => None end) t.

(** The request the function sends once the payload is built. *)
Definition request_of (payload : gmap string value) (e : Endpoint) : Request :=
  mkRequest (command_url e) payload (timeout e).

(** The six action names the builder looks at. *)
Definition special_actions : list string :=
  [ "set_breakpoint"; "evaluate"; "evaluate_swift"; "watch_expr";
    "variables"; "select_thread" ].

(** ** The vocabulary of the specification *)

(** A required field is absent when the caller passed [None] for it: [file]
    or [line] for [set_breakpoint], [expression] for the three expression
    actions, [thread_id] for [select_thread]. *)
Definition required_absent (action : string) (f : Fields) : Prop :=
  (action = "set_breakpoint" ∧ (file f = None ∨ line f = None)) ∨
  (action ∈ expression_actions ∧ expression f = None) ∨
  (action = "select_thread" ∧ thread_id f = None).

(** A required field is missing for the function when it is absent or, for
    a string, empty. *)
Definition required_missing (action : string) (f : Fields) : Prop :=
  (action = "set_breakpoint" ∧
     (file f = None ∨ file f = Some "" ∨ line f = None)) ∨
  (action ∈ expression_actions ∧
     (expression f = None ∨ expression f = Some "")) ∨
  (action = "select_thread" ∧ thread_id f = None).

(** The optional fields by name, the key each one has in the payload, what
    the caller supplied for it, and the actions it is relevant to. *)
Inductive field : Type :=
| FFile
| FLine
| FExpression
| FVariablesReference
| FThreadId.

Definition key (x : field) : string :=
  match x with
  | FFile => "file"
  | FLine => "line"
  | FExpression => "expression"
  | FVariablesReference => "variablesReference"
  | FThreadId => "threadId"
  end.

Definition supplied (f : Fields) (x : field) : option value :=
  match x with
  | FFile => VStr <$> file f
  | FLine => VInt <$> line f
  | FExpression => VStr <$> expression f
  | FVariablesReference => VInt <$> variables_reference f
  | FThreadId => VInt <$> thread_id f
  end.

Definition relevant (action : string) (x : field) : Prop :=
  match x with
  | FFile | FLine => action = "set_breakpoint"
  | FExpression => action ∈ expression_actions
  | FVariablesReference => action = "variables"
  | FThreadId => action = "select_thread"
  end.

(** A double quote, for JSON bodies. *)
Definition dq : string := String (Ascii.ascii_of_nat 34) "".

(** The body [{"error":"boom"}]. *)
Definition boom_body : string :=
  "{" +:+ dq +:+ "error" +:+ dq +:+ ":" +:+ dq +:+ "boom" +:+ dq +:+ "}".

(** A service that answers every request with status 500 and [boom_body];
    the decoder knows no document. *)
Definition failing_world : World :=
  mkWorld (λ _, inr (mkResponse 500 boom_body)) (λ _, None).

(** A service that answers every request with status 300 (Multiple Choices,
    followed by no redirect) and the body [{}]; the decoder reads [{}] as the
    empty object. *)
Definition multiple_choices_world : World :=
  mkWorld (λ _, inr (mkResponse 300 "{}"))
          (λ body, if decide (body = "{}") then Some (JObject []) else None).


(** [g] supplies at least what [f] supplies, with the same values. *)
Definition supplies_more (g f : Fields) : Prop :=
  ∀ x v, supplied f x = Some v → supplied g x = Some v.

(** A service that answers every request with status 200 and the body
    [{}]; the decoder reads [{}] as the empty object. *)
Definition ok_world : World :=
  mkWorld (λ _, inr (mkResponse 200 "{}"))
          (λ body, if decide (body = "{}") then Some (JObject []) else None).

(** A service that cannot be reached. *)
Definition unreachable_world : World :=
  mkWorld (λ _, inl ConnectionError) (λ _, None).

(** A service that answers every request with status 200 and a body that
    is no JSON document. *)
Definition garbled_world : World :=
  mkWorld (λ _, inr (mkResponse 200 "<html>")) (λ _, None).

(** ** The command line entry point *)

(** The options of the command line as [argparse] reads them, after it has
    split the arguments and converted the ones declared [type=int]: [None]
    for an option that was not given. *)
Record CommandLine : Type := mkCommandLine {
  opt_host : option string;
  opt_port : option Z;
  opt_action : option string;
  opt_file : option string;
  opt_line : option Z;
  opt_expression : option string;
  opt_variables_reference : option Z;
  opt_thread_id : option Z
}.

(** The namespace [parser.parse_args()] returns. *)
Record Namespace : Type := mkNamespace {
  ns_host : string;
  ns_port : Z;
  ns_action : string;
  ns_file : option string;
  ns_line : option Z;
  ns_expression : option string;
  ns_variables_reference : option Z;
  ns_thread_id : option Z
}.

(** Lines 57 to 66: [--action] is required, and the parser gives up when it
    is missing; [--host] and [--port] have defaults; every other option is
    [None] unless given. *)
Definition parse_args (cl : CommandLine) : option Namespace :=
  match opt_action cl with
  | None => None
  | Some action =>
      Some (mkNamespace (default "127.0.0.1" (opt_host cl))
                        (default 4000 (opt_port cl))
                        action (opt_file cl) (opt_line cl)
                        (opt_expression cl) (opt_variables_reference cl)
                        (opt_thread_id cl))
  end.

(** How the process ends: [main] returns, the parser reports a usage error
    and exits, or an exception leaves [main]. *)
Inductive exit : Type :=
| Returned
| UsageError
| Uncaught (e : exn).

(** What a run of [main] shows: the library calls it made, what it wrote to
    the standard output, and how it ended. *)
Record Process : Type := mkProcess {
  calls : list event;
  stdout : string;
  status : exit
}.

(** The line feed that [main] writes after the response. *)
Definition nl : string := String (Ascii.ascii_of_nat 10) "".

(** The fields [main] passes on (lines 69 to 73). *)
Definition ns_fields (args : Namespace) : Fields :=
  mkFields (ns_file args) (ns_line args) (ns_expression args)
           (ns_variables_reference args) (ns_thread_id args).

(** The endpoint [main] passes on (lines 74 and 75): the host and the port
    of the command line; no timeout is passed, so the default of the
    signature applies. *)
Definition ns_endpoint (args : Namespace) : Endpoint :=
  mkEndpoint (ns_host args) (ns_port args) (timeout default_endpoint).

(** Lines 56 to 78. [dumps] is the serializer of the standard library,
    [json.dump(_, sys.stdout, indent=2)], taken as it is. *)
Definition main (dumps : json_value → string) (w : World)
    (cl : CommandLine) : Process :=
  match parse_args cl with
  | None => mkProcess [] "" UsageError
  | Some args =>
      match run w (ios_debug_command (ns_action args) (ns_fields args)
                                     (ns_endpoint args)) with
      | (t, inl e) => mkProcess t "" (Uncaught e)
      | (t, inr response) => mkProcess t (dumps response +:+ nl) Returned
      end
  end.

(** Whether a string holds a colon. *)
Fixpoint has_colon (s : string) : bool :=
  match s with
  | "" => false
  | String c s' => bool_decide (c = Ascii.ascii_of_nat 58) || has_colon s'
  end.

(** * Properties *)

(** ** The builder, action by action *)

Lemma build_set_breakpoint f :
  build "set_breakpoint" f =
    if negb (truthy (file f)) || is_None (line f)
    then Raise (ValueError "set_breakpoint requires --file and --line")
    else Ret {[ "action" := VStr "set_breakpoint";
                "file" := of_str (file f); "line" := of_int (line f) ]}.
Proof.
  unfold build.
  destruct (negb (truthy (file f)) || is_None (line f)); [reflexivity|].
  destruct (is_None (variables_reference f)), (is_None (thread_id f));
    vm_compute; reflexivity.
Qed.

Lemma expression_actions_spec action :
  action ∈ expression_actions ↔
  action = "evaluate" ∨ action = "evaluate_swift" ∨ action = "watch_expr".
Proof. unfold expression_actions. set_solver. Qed.

Lemma build_expression action f :
  action ∈ expression_actions →
  build action f =
    if negb (truthy (expression f))
    then Raise (ValueError (action +:+ " requires --expression"))
    else Ret {[ "action" := VStr action;
                "expression" := of_str (expression f) ]}.
Proof.
  intros Hin. apply expression_actions_spec in Hin.
  unfold build.
  destruct Hin as [-> | [-> | ->]];
    destruct (negb (truthy (expression f))); try reflexivity;
    destruct (is_None (variables_reference f)), (is_None (thread_id f));
    vm_compute; reflexivity.
Qed.

Lemma build_variables f :
  build "variables" f =
    if is_None (variables_reference f)
    then Ret {[ "action" := VStr "variables" ]}
    else Ret {[ "action" := VStr "variables";
                "variablesReference" := of_int (variables_reference f) ]}.
Proof.
  unfold build.
  destruct (is_None (variables_reference f)); vm_compute; reflexivity.
Qed.

Lemma build_select_thread f :
  build "select_thread" f =
    if is_None (thread_id f)
    then Raise (ValueError "select_thread requires --thread-id")
    else Ret {[ "action" := VStr "select_thread";
                "threadId" := of_int (thread_id f) ]}.
Proof.
  unfold build.
  destruct (is_None (thread_id f)); [|vm_compute; reflexivity].
  destruct (is_None (variables_reference f)); reflexivity.
Qed.

Lemma build_other action f :
  action ∉ special_actions →
  build action f = Ret {[ "action" := VStr action ]}.
Proof.
  intros Hnot. unfold build, special_actions in *.
  rewrite !bool_decide_eq_false_2; [reflexivity | | | |].
  all: try rewrite expression_actions_spec; set_solver.
Qed.

Lemma action_cases action :
  action = "set_breakpoint" ∨ action ∈ expression_actions ∨
  action = "variables" ∨ action = "select_thread" ∨
  action ∉ special_actions.
Proof.
  destruct (decide (action ∈ special_actions)) as [Hin | Hnot]; [|tauto].
  rewrite expression_actions_spec.
  unfold special_actions in Hin. set_solver.
Qed.

(** ** Validation *)

(** C1, as stated, fails: with [file=""] and [line=10] both required fields
    of [set_breakpoint] are supplied, none is absent, and the function still
    raises. *)
Lemma build_empty_file_raises :
  ¬ required_absent "set_breakpoint"
      (mkFields (Some "") (Some 10) None None None) ∧
  build "set_breakpoint" (mkFields (Some "") (Some 10) None None None) =
    Raise (ValueError "set_breakpoint requires --file and --line").
Proof.
  split; [|reflexivity].
  unfold required_absent. rewrite expression_actions_spec. simpl.
  naive_solver.
Qed.

(** C1, amended: the builder raises [ValueError] exactly when a required
    field of the action is missing, that is absent or, for the string
    fields [file] and [expression], empty; in every other case it returns a
    request. *)
Theorem build_raises_iff_missing action f :
  ((∃ msg, build action f = Raise (ValueError msg)) ↔
     required_missing action f) ∧
  ((∃ payload, build action f = Ret payload) ↔
     ¬ required_missing action f).
Proof.
  unfold required_missing.
  destruct (action_cases action) as [-> | [Hin | [-> | [-> | Hnot]]]].
  - rewrite build_set_breakpoint, expression_actions_spec.
    destruct f as [[[|c s]|] [n|] ex vr th]; simpl; naive_solver.
  - rewrite (build_expression _ _ Hin).
    apply expression_actions_spec in Hin as Hact.
    destruct f as [fl ln [[|c s]|] vr th]; simpl; naive_solver.
  - rewrite build_variables, expression_actions_spec.
    destruct (is_None (variables_reference f)); naive_solver.
  - rewrite build_select_thread, expression_actions_spec.
    destruct f as [fl ln ex vr [n|]]; simpl; naive_solver.
  - rewrite (build_other _ _ Hnot), expression_actions_spec.
    unfold special_actions in Hnot. set_solver.
Qed.

(** ** The shape of the request *)

(** Steps shared by the cases of the next proof: the lookup of each field's
    key, and the search for the keys a payload can hold. *)
Ltac field_by_field :=
  let x := fresh "x" in let v := fresh "v" in
  intros x v; destruct x; simpl; rewrite ?expression_actions_spec;
  simplify_map_eq; naive_solver.

Ltac other_key k :=
  destruct (decide (k = "action")); [by left | right].

Ltac key_is k x :=
  destruct (decide (k = key x)); [by exists x | simpl in *].

Ltac no_key_left Hk :=
  let v := fresh "v" in destruct Hk as [v Hk]; simplify_map_eq.

(** C2: when the builder succeeds, the payload holds [action] with the
    given value; the key of a field is present, with the supplied value, if
    and only if the field is relevant to the action and was supplied; and
    there is no other key. *)
Theorem build_payload_fields action f payload :
  build action f = Ret payload →
  payload !! "action" = Some (VStr action) ∧
  (∀ x v, payload !! key x = Some v ↔
            relevant action x ∧ supplied f x = Some v) ∧
  (∀ k, is_Some (payload !! k) → k = "action" ∨ ∃ x, k = key x).
Proof.
  destruct (action_cases action) as [-> | [Hin | [-> | [-> | Hnot]]]].
  - rewrite build_set_breakpoint.
    destruct f as [[[|c s]|] [n|] ex vr th]; simpl; try discriminate.
    intros [= <-]. split; [done|]. split; [field_by_field|].
    intros k Hk. other_key k; key_is k FFile; key_is k FLine.
    no_key_left Hk.
  - rewrite (build_expression _ _ Hin).
    apply expression_actions_spec in Hin as Hact.
    destruct f as [fl ln [[|c s]|] vr th]; simpl; try discriminate.
    intros [= <-]. split; [by simplify_map_eq|]. split; [field_by_field|].
    intros k Hk. other_key k; key_is k FExpression.
    no_key_left Hk.
  - rewrite build_variables.
    destruct f as [fl ln ex [n|] th]; simpl; intros [= <-];
      (split; [done|]); (split; [field_by_field|]); intros k Hk; other_key k.
    + key_is k FVariablesReference. no_key_left Hk.
    + no_key_left Hk.
  - rewrite build_select_thread.
    destruct f as [fl ln ex vr [n|]]; simpl; try discriminate.
    intros [= <-]. split; [done|]. split; [field_by_field|].
    intros k Hk. other_key k; key_is k FThreadId.
    no_key_left Hk.
  - rewrite (build_other _ _ Hnot). intros [= <-].
    split; [by simplify_map_eq|]. unfold special_actions in Hnot. split.
    + intros x v. destruct x; simpl; rewrite ?expression_actions_spec;
        simplify_map_eq; set_solver.
    + intros k Hk. other_key k. no_key_left Hk.
Qed.

Lemma build_payload_fields_witness :
  ({[ "action" := VStr "variables"; "variablesReference" := VInt 5 ]}
     : gmap string value) !! "action" = Some (VStr "variables") ∧
  (∀ x v,
     ({[ "action" := VStr "variables"; "variablesReference" := VInt 5 ]}
        : gmap string value) !! key x = Some v ↔
     relevant "variables" x ∧
     supplied (mkFields (Some "a.swift") None None (Some 5) None) x = Some v) ∧
  (∀ k,
     is_Some (({[ "action" := VStr "variables";
                  "variablesReference" := VInt 5 ]}
                 : gmap string value) !! k) →
     k = "action" ∨ ∃ x, k = key x).
Proof.
  apply (build_payload_fields "variables"
           (mkFields (Some "a.swift") None None (Some 5) None)).
  reflexivity.
Defined.

(** C3, as stated, fails: [evaluate] with the expression [""] supplied
    builds no request, it raises. *)
Lemma build_evaluate_empty_expression_raises :
  build "evaluate" (mkFields None None (Some "") None None) =
    Raise (ValueError "evaluate requires --expression") ∧
  build "evaluate" (mkFields None None (Some "") None None) ≠
    Ret {[ "action" := VStr "evaluate"; "expression" := VStr "" ]}.
Proof. split; [reflexivity | discriminate]. Qed.

(** C3, amended: for [evaluate] with a non-empty expression supplied, the
    request is exactly the action and the expression, whatever else the
    caller supplied: [file], [line] and the other fields are dropped. *)
Theorem build_evaluate_exact f e :
  expression f = Some e → e ≠ "" →
  build "evaluate" f =
    Ret {[ "action" := VStr "evaluate"; "expression" := VStr e ]}.
Proof.
  intros He Hne.
  rewrite build_expression by (apply expression_actions_spec; auto).
  rewrite He. destruct e as [|c s]; [congruence | reflexivity].
Qed.

Lemma build_evaluate_exact_witness :
  build "evaluate" (mkFields (Some "a.swift") (Some 10) (Some "x+1") None None) =
    Ret {[ "action" := VStr "evaluate"; "expression" := VStr "x+1" ]}.
Proof. apply build_evaluate_exact; [reflexivity | discriminate]. Defined.

(** C4, as stated, fails: [set_breakpoint] with [file=""] and [line=1]
    supplied builds no request, it raises. *)
Lemma build_set_breakpoint_empty_file_raises :
  build "set_breakpoint" (mkFields (Some "") (Some 1) None None None) =
    Raise (ValueError "set_breakpoint requires --file and --line") ∧
  build "set_breakpoint" (mkFields (Some "") (Some 1) None None None) ≠
    Ret {[ "action" := VStr "set_breakpoint";
           "file" := VStr ""; "line" := VInt 1 ]}.
Proof. split; [reflexivity | discriminate]. Qed.

(** C4, amended: for [set_breakpoint] with a non-empty file and a line
    supplied, the request is exactly the action, the file and the line. *)
Theorem build_set_breakpoint_exact f fl n :
  file f = Some fl → fl ≠ "" → line f = Some n →
  build "set_breakpoint" f =
    Ret {[ "action" := VStr "set_breakpoint";
           "file" := VStr fl; "line" := VInt n ]}.
Proof.
  intros Hf Hne Hl. rewrite build_set_breakpoint, Hf, Hl.
  destruct fl as [|c s]; [congruence | reflexivity].
Qed.

Lemma build_set_breakpoint_exact_witness :
  build "set_breakpoint"
    (mkFields (Some "a.swift") (Some 10) (Some "x+1") (Some 5) (Some 2)) =
    Ret {[ "action" := VStr "set_breakpoint";
           "file" := VStr "a.swift"; "line" := VInt 10 ]}.
Proof.
  apply build_set_breakpoint_exact; [reflexivity | discriminate | reflexivity].
Defined.

(** C5: for [variables] the builder never raises; the request is the action
    alone when no [variablesReference] was supplied, and the action with the
    reference when one was. *)
Theorem build_variables_exact f :
  build "variables" f =
    Ret (match variables_reference f with
         | None => {[ "action" := VStr "variables" ]}
         | Some n => {[ "action" := VStr "variables";
                        "variablesReference" := VInt n ]}
         end).
Proof.
  rewrite build_variables.
  destruct (variables_reference f) as [n|]; reflexivity.
Qed.

Example build_variables_none :
  build "variables" no_fields = Ret {[ "action" := VStr "variables" ]}.
Proof. reflexivity. Qed.

Example build_variables_5 :
  build "variables" (mkFields None None None (Some 5) None) =
    Ret {[ "action" := VStr "variables"; "variablesReference" := VInt 5 ]}.
Proof. reflexivity. Qed.

(** C6: an action that is none of the six names the builder looks at is
    accepted whatever fields come with it, and the request holds the action
    alone. *)
Theorem build_unrecognized action f :
  action ≠ "set_breakpoint" → action ≠ "evaluate" →
  action ≠ "evaluate_swift" → action ≠ "watch_expr" →
  action ≠ "variables" → action ≠ "select_thread" →
  build action f = Ret {[ "action" := VStr action ]}.
Proof.
  intros H1 H2 H3 H4 H5 H6. apply build_other.
  unfold special_actions. set_solver.
Qed.

Lemma build_unrecognized_witness :
  build "foo" (mkFields (Some "a.swift") (Some 10) (Some "x+1") (Some 5) (Some 2)) =
    Ret {[ "action" := VStr "foo" ]}.
Proof. apply build_unrecognized; discriminate. Defined.

(** C9: an integer field equal to 0 counts as supplied. [set_breakpoint]
    with a non-empty file and [line=0] carries [line: 0], [select_thread]
    with [threadId=0] carries [threadId: 0], and [variables] with
    [variablesReference=0] carries [variablesReference: 0]. *)
Theorem zero_is_supplied f :
  (∀ fl, file f = Some fl → fl ≠ "" → line f = Some 0 →
     build "set_breakpoint" f =
       Ret {[ "action" := VStr "set_breakpoint";
              "file" := VStr fl; "line" := VInt 0 ]}) ∧
  (thread_id f = Some 0 →
     build "select_thread" f =
       Ret {[ "action" := VStr "select_thread"; "threadId" := VInt 0 ]}) ∧
  (variables_reference f = Some 0 →
     build "variables" f =
       Ret {[ "action" := VStr "variables";
              "variablesReference" := VInt 0 ]}).
Proof.
  split; [|split].
  - intros fl Hf Hne Hl. rewrite build_set_breakpoint, Hf, Hl.
    destruct fl as [|c s]; [congruence | reflexivity].
  - intros Ht. rewrite build_select_thread, Ht. reflexivity.
  - intros Hv. rewrite build_variables, Hv. reflexivity.
Qed.

Lemma zero_is_supplied_witness :
  build "set_breakpoint" (mkFields (Some "a.swift") (Some 0) None (Some 0) (Some 0)) =
    Ret {[ "action" := VStr "set_breakpoint";
           "file" := VStr "a.swift"; "line" := VInt 0 ]} ∧
  build "select_thread" (mkFields (Some "a.swift") (Some 0) None (Some 0) (Some 0)) =
    Ret {[ "action" := VStr "select_thread"; "threadId" := VInt 0 ]} ∧
  build "variables" (mkFields (Some "a.swift") (Some 0) None (Some 0) (Some 0)) =
    Ret {[ "action" := VStr "variables"; "variablesReference" := VInt 0 ]}.
Proof.
  pose proof (zero_is_supplied
    (mkFields (Some "a.swift") (Some 0) None (Some 0) (Some 0)))
    as (Hb & Ht & Hv).
  split; [|split].
  - apply (Hb "a.swift"); [reflexivity | discriminate | reflexivity].
  - apply Ht. reflexivity.
  - apply Hv. reflexivity.
Defined.

(** ** The HTTP exchange *)

(** The builder calls nothing: it returns a payload or raises [ValueError]. *)
Lemma build_total action f :
  (∃ msg, build action f = Raise (ValueError msg)) ∨
  (∃ payload, build action f = Ret payload).
Proof.
  destruct (action_cases action) as [-> | [Hin | [-> | [-> | Hnot]]]].
  - rewrite build_set_breakpoint.
    destruct (negb (truthy (file f)) || is_None (line f)); eauto.
  - rewrite (build_expression _ _ Hin).
    destruct (negb (truthy (expression f))); eauto.
  - rewrite build_variables.
    destruct (is_None (variables_reference f)); eauto.
  - rewrite build_select_thread. destruct (is_None (thread_id f)); eauto.
  - rewrite (build_other _ _ Hnot). eauto.
Qed.

(** Everything that can happen once the payload is built: one POST, then
    a transport failure, an [HTTPError], a decoding error or the result. *)
Lemma run_after_build action f ep w payload :
  build action f = Ret payload →
  run w (ios_debug_command action f ep) =
    let rq := request_of payload ep in
    match net w rq with
    | inl why => ([EPost rq], inl (RequestFailed why))
    | inr resp =>
        if error_status resp then ([EPost rq], inl (HTTPError resp))
        else match loads w (text resp) with
             | None => ([EPost rq; EJson resp], inl (JSONDecodeError resp))
             | Some v => ([EPost rq; EJson resp], inr v)
             end
    end.
Proof.
  intros Hb. unfold ios_debug_command. rewrite Hb. simpl.
  fold (request_of payload ep).
  destruct (net w (request_of payload ep)) as [why | resp]; [reflexivity|].
  unfold raise_for_status.
  destruct (error_status resp); simpl; [reflexivity|].
  destruct (loads w (text resp)); reflexivity.
Qed.

Lemma run_build_raises action f ep w e :
  build action f = Raise e →
  run w (ios_debug_command action f ep) = ([], inl e).
Proof. intros Hb. unfold ios_debug_command. rewrite Hb. reflexivity. Qed.

(** C7: a validation failure happens before any network activity. When the
    builder raises, the function raises the same error and its trace of
    library calls is empty; and whenever the function ends in [ValueError],
    in any world, nothing was posted. *)
Theorem validation_precedes_network action f ep w :
  (∀ e, build action f = Raise e →
        run w (ios_debug_command action f ep) = ([], inl e)) ∧
  (∀ msg, (run w (ios_debug_command action f ep)).2 = inl (ValueError msg) →
          (run w (ios_debug_command action f ep)).1 = [] ∧
          build action f = Raise (ValueError msg)).
Proof.
  split.
  - intros e. apply run_build_raises.
  - intros msg.
    destruct (build_total action f) as [[m Hb] | [payload Hb]].
    + rewrite (run_build_raises _ _ _ _ _ Hb). simpl.
      intros [= ->]. done.
    + rewrite (run_after_build _ _ _ _ _ Hb). simpl.
      destruct (net w (request_of payload ep)) as [why | resp];
        [discriminate|].
      destruct (error_status resp); [discriminate|].
      destruct (loads w (text resp)); discriminate.
Qed.

Lemma validation_precedes_network_witness :
  run failing_world
      (ios_debug_command "select_thread" no_fields default_endpoint) =
    ([], inl (ValueError "select_thread requires --thread-id")).
Proof.
  apply (proj1 (validation_precedes_network
                  "select_thread" no_fields default_endpoint failing_world)).
  reflexivity.
Defined.

Example command_url_default :
  command_url default_endpoint = "http://127.0.0.1:4000/command".
Proof. vm_compute. reflexivity. Qed.

(** C8, as stated, fails: a response with status 300, which is no success
    status, raises nothing; its body is decoded and returned as the result. *)
Lemma status_300_is_decoded :
  run multiple_choices_world
      (ios_debug_command "foo" no_fields default_endpoint) =
    ([EPost (request_of {[ "action" := VStr "foo" ]} default_endpoint);
      EJson (mkResponse 300 "{}")],
     inr (JObject [])).
Proof. reflexivity. Qed.

(** C8, amended: when the exchange completes with a client or server error
    status (400 to 599), the function raises [HTTPError] carrying the
    response, hence its status and body; the trace is the one POST, so
    nothing is sent again and the body is not decoded. *)
Theorem http_error_status action f ep w payload resp :
  build action f = Ret payload →
  net w (request_of payload ep) = inr resp →
  400 ≤ status_code resp < 600 →
  run w (ios_debug_command action f ep) =
    ([EPost (request_of payload ep)], inl (HTTPError resp)).
Proof.
  intros Hb Hnet Hst. rewrite (run_after_build _ _ _ _ _ Hb). simpl.
  rewrite Hnet.
  assert (error_status resp = true) as ->; [|reflexivity].
  unfold error_status. apply andb_true_intro.
  split; [apply Z.leb_le | apply Z.ltb_lt]; lia.
Qed.

Lemma http_error_status_witness :
  run failing_world (ios_debug_command "foo" no_fields default_endpoint) =
    ([EPost (request_of {[ "action" := VStr "foo" ]} default_endpoint)],
     inl (HTTPError (mkResponse 500 boom_body))).
Proof.
  apply http_error_status; [reflexivity | reflexivity | simpl; lia].
Defined.

(** C10: the payload does not depend on the endpoint. Two invocations with
    the same action and fields post the same payloads, whatever the hosts,
    ports and timeouts, and whatever the services answer; the endpoint shows
    only in the URL and the timeout of the request. *)
Theorem payload_independent_of_endpoint action f ep1 ep2 w1 w2 :
  posted_payloads (run w1 (ios_debug_command action f ep1)).1 =
    posted_payloads (run w2 (ios_debug_command action f ep2)).1 ∧
  (∀ rq, EPost rq ∈ (run w1 (ios_debug_command action f ep1)).1 →
         build action f = Ret (json rq) ∧
         url rq = command_url ep1 ∧ req_timeout rq = timeout ep1).
Proof.
  destruct (build_total action f) as [[m Hb] | [payload Hb]].
  - rewrite !(run_build_raises _ _ _ _ _ Hb). simpl.
    split; [reflexivity|]. intros rq Hin. by apply elem_of_nil in Hin.
  - rewrite !(run_after_build _ _ _ _ _ Hb). simpl. split.
    + destruct (net w1 (request_of payload ep1)) as [?|r1],
               (net w2 (request_of payload ep2)) as [?|r2]; simpl;
        try destruct (error_status r1); try destruct (error_status r2);
        try destruct (loads w1 (text r1)); try destruct (loads w2 (text r2));
        reflexivity.
    + intros rq Hin.
      assert (rq = request_of payload ep1) as ->; [|done].
      destruct (net w1 (request_of payload ep1)) as [?|r1]; simpl in Hin;
        try destruct (error_status r1); try destruct (loads w1 (text r1));
        set_solver.
Qed.

(** * Further properties of the function *)

(** ** The exchange, outcome by outcome *)



(** X2: when the service answers with a status that is no error status and
    a body the decoder accepts, the function returns the decoded body as it
    is, after one POST and one decoding. *)
Theorem success_returns_decoded_body action f ep w payload resp v :
  build action f = Ret payload →
  net w (request_of payload ep) = inr resp →
  error_status resp = false →
  loads w (text resp) = Some v →
  run w (ios_debug_command action f ep) =
    ([EPost (request_of payload ep); EJson resp], inr v).
Proof.
  intros Hb Hnet Hst Hv. rewrite (run_after_build _ _ _ _ _ Hb). simpl.
  rewrite Hnet, Hst, Hv. reflexivity.
Qed.

Lemma success_returns_decoded_body_witness :
  run ok_world (ios_debug_command "variables" no_fields default_endpoint) =
    ([EPost (request_of {[ "action" := VStr "variables" ]} default_endpoint);
      EJson (mkResponse 200 "{}")],
     inr (JObject [])).
Proof. apply success_returns_decoded_body; reflexivity. Defined.

(** X3: when the POST delivers no response (connection failure or
    timeout), the function raises that failure; there is no second attempt
    and nothing is decoded. *)
Theorem transport_failure_propagates action f ep w payload why :
  build action f = Ret payload →
  net w (request_of payload ep) = inl why →
  run w (ios_debug_command action f ep) =
    ([EPost (request_of payload ep)], inl (RequestFailed why)).
Proof.
  intros Hb Hnet. rewrite (run_after_build _ _ _ _ _ Hb). simpl.
  rewrite Hnet. reflexivity.
Qed.

Lemma transport_failure_propagates_witness :
  run unreachable_world
      (ios_debug_command "variables" no_fields default_endpoint) =
    ([EPost (request_of {[ "action" := VStr "variables" ]} default_endpoint)],
     inl (RequestFailed ConnectionError)).
Proof. apply transport_failure_propagates; reflexivity. Defined.

(** X4: when the status is no error status and the body is no JSON
    document, the function raises the decoding error; it returns no
    result. *)
Theorem undecodable_body_raises action f ep w payload resp :
  build action f = Ret payload →
  net w (request_of payload ep) = inr resp →
  error_status resp = false →
  loads w (text resp) = None →
  run w (ios_debug_command action f ep) =
    ([EPost (request_of payload ep); EJson resp],
     inl (JSONDecodeError resp)).
Proof.
  intros Hb Hnet Hst Hv. rewrite (run_after_build _ _ _ _ _ Hb). simpl.
  rewrite Hnet, Hst, Hv. reflexivity.
Qed.

Lemma undecodable_body_raises_witness :
  run garbled_world
      (ios_debug_command "variables" no_fields default_endpoint) =
    ([EPost (request_of {[ "action" := VStr "variables" ]} default_endpoint);
      EJson (mkResponse 200 "<html>")],
     inl (JSONDecodeError (mkResponse 200 "<html>"))).
Proof. apply undecodable_body_raises; reflexivity. Defined.

(** ** The builder and the fields it is given *)

(** X5: the outcome of the builder, request or error, depends on the
    fields relevant to the action alone: two callers that agree on them get
    the same outcome, whatever else each of them supplies. *)
Theorem irrelevant_fields_ignored action f g :
  (∀ x, relevant action x → supplied f x = supplied g x) →
  build action f = build action g.
Proof.
  intros Hsame.
  destruct (action_cases action) as [-> | [Hin | [-> | [-> | Hnot]]]].
  - pose proof (Hsame FFile eq_refl) as Hf.
    pose proof (Hsame FLine eq_refl) as Hl.
    rewrite !build_set_breakpoint.
    destruct f as [[?|] [?|] ? ? ?], g as [[?|] [?|] ? ? ?];
      simpl in *; by simplify_eq.
  - pose proof (Hsame FExpression Hin) as He.
    rewrite !(build_expression _ _ Hin).
    destruct f as [? ? [?|] ? ?], g as [? ? [?|] ? ?];
      simpl in *; by simplify_eq.
  - pose proof (Hsame FVariablesReference eq_refl) as Hv.
    rewrite !build_variables.
    destruct f as [? ? ? [?|] ?], g as [? ? ? [?|] ?];
      simpl in *; by simplify_eq.
  - pose proof (Hsame FThreadId eq_refl) as Ht.
    rewrite !build_select_thread.
    destruct f as [? ? ? ? [?|]], g as [? ? ? ? [?|]];
      simpl in *; by simplify_eq.
  - by rewrite !(build_other _ _ Hnot).
Qed.

Lemma irrelevant_fields_ignored_witness :
  build "evaluate" (mkFields (Some "a.swift") (Some 10) (Some "x+1") None None) =
  build "evaluate" (mkFields None None (Some "x+1") (Some 5) (Some 2)).
Proof.
  apply irrelevant_fields_ignored.
  intros x Hx. destruct x; simpl in Hx; try discriminate; try reflexivity.
  all: apply expression_actions_spec in Hx;
    destruct Hx as [Hx | [Hx | Hx]]; discriminate.
Defined.

(** X6: supplying more never hurts. When the builder accepts some fields,
    it accepts every set of fields that supplies at least the same values,
    and the request it builds then holds every key of the first request
    with the same value. *)
Theorem more_fields_never_fail action f g payload :
  build action f = Ret payload →
  supplies_more g f →
  ∃ payload', build action g = Ret payload' ∧ payload ⊆ payload'.
Proof.
  intros Hb Hmore.
  destruct (action_cases action) as [-> | [Hin | [-> | [-> | Hnot]]]].
  - rewrite build_set_breakpoint in Hb. rewrite build_set_breakpoint.
    destruct f as [[[|c s]|] [n|] ? ? ?]; simpl in Hb; try discriminate.
    pose proof (Hmore FFile _ eq_refl) as Hf.
    pose proof (Hmore FLine _ eq_refl) as Hl.
    destruct g as [[fl|] [ln|] ? ? ?]; simpl in *; simplify_eq.
    eexists; split; reflexivity.
  - rewrite (build_expression _ f Hin) in Hb.
    rewrite (build_expression _ g Hin).
    destruct f as [? ? [[|c s]|] ? ?]; simpl in Hb; try discriminate.
    pose proof (Hmore FExpression _ eq_refl) as He.
    destruct g as [? ? [ex|] ? ?]; simpl in *; simplify_eq.
    eexists; split; reflexivity.
  - rewrite build_variables in Hb. rewrite build_variables.
    destruct f as [? ? ? [n|] ?]; simpl in Hb; simplify_eq.
    + pose proof (Hmore FVariablesReference _ eq_refl) as Hv.
      destruct g as [? ? ? [m|] ?]; simpl in *; simplify_eq.
      eexists; split; reflexivity.
    + destruct g as [? ? ? [m|] ?]; simpl;
        (eexists; split; [reflexivity|]); [|reflexivity].
      apply map_subseteq_spec. intros k v Hk.
      apply lookup_singleton_Some in Hk as [<- <-]. done.
  - rewrite build_select_thread in Hb. rewrite build_select_thread.
    destruct f as [? ? ? ? [n|]]; simpl in Hb; try discriminate.
    pose proof (Hmore FThreadId _ eq_refl) as Ht.
    destruct g as [? ? ? ? [m|]]; simpl in *; simplify_eq.
    eexists; split; reflexivity.
  - rewrite (build_other _ f Hnot) in Hb. rewrite (build_other _ g Hnot).
    simplify_eq.
    eexists; split; reflexivity.
Qed.

Lemma more_fields_never_fail_witness :
  ∃ payload',
    build "variables" (mkFields (Some "a.swift") None None (Some 5) None) =
      Ret payload' ∧
    ({[ "action" := VStr "variables" ]} : gmap string value) ⊆ payload'.
Proof.
  apply (more_fields_never_fail "variables" no_fields); [reflexivity|].
  intros x v Hx. destruct x; discriminate.
Defined.

(** X7: a request never carries a null and never carries an empty field.
    Every value of a built payload is a string or an integer, the value of
    every key other than [action] is not the empty string, and the payload
    has at least one and at most three keys. *)
Theorem payload_values_well_formed action f payload :
  build action f = Ret payload →
  (∀ k v, payload !! k = Some v →
          v ≠ VNone ∧ (k ≠ "action" → v ≠ VStr "")) ∧
  (1 ≤ size payload ≤ 3)%nat.
Proof.
  destruct (action_cases action) as [-> | [Hin | [-> | [-> | Hnot]]]].
  - rewrite build_set_breakpoint.
    destruct f as [[[|c s]|] [n|] ? ? ?]; simpl; try discriminate.
    intros [= <-]. split; [|vm_compute; lia].
    intros k v Hk.
    apply lookup_insert_Some in Hk as [[<- <-] | [_ Hk]]; [done|].
    apply lookup_insert_Some in Hk as [[<- <-] | [_ Hk]]; [done|].
    apply lookup_singleton_Some in Hk as [<- <-]. done.
  - rewrite (build_expression _ _ Hin).
    destruct f as [? ? [[|c s]|] ? ?]; simpl; try discriminate.
    intros [= <-]. split.
    + intros k v Hk.
      apply lookup_insert_Some in Hk as [[<- <-] | [_ Hk]]; [done|].
      apply lookup_singleton_Some in Hk as [<- <-]. done.
    + rewrite map_size_insert, lookup_singleton_ne by done.
      rewrite map_size_singleton. lia.
  - rewrite build_variables.
    destruct f as [? ? ? [n|] ?]; simpl; intros [= <-];
      (split; [|vm_compute; lia]); intros k v Hk.
    + apply lookup_insert_Some in Hk as [[<- <-] | [_ Hk]]; [done|].
      apply lookup_singleton_Some in Hk as [<- <-]. done.
    + apply lookup_singleton_Some in Hk as [<- <-]. done.
  - rewrite build_select_thread.
    destruct f as [? ? ? ? [n|]]; simpl; try discriminate.
    intros [= <-]. split; [|vm_compute; lia].
    intros k v Hk.
    apply lookup_insert_Some in Hk as [[<- <-] | [_ Hk]]; [done|].
    apply lookup_singleton_Some in Hk as [<- <-]. done.
  - rewrite (build_other _ _ Hnot). intros [= <-]. split.
    + intros k v Hk. apply lookup_singleton_Some in Hk as [<- <-]. done.
    + rewrite map_size_singleton. lia.
Qed.

Lemma payload_values_well_formed_witness :
  (∀ k v,
     ({[ "action" := VStr "set_breakpoint";
         "file" := VStr "a.swift"; "line" := VInt 0 ]}
        : gmap string value) !! k = Some v →
     v ≠ VNone ∧ (k ≠ "action" → v ≠ VStr "")) ∧
  (1 ≤ size ({[ "action" := VStr "set_breakpoint";
                "file" := VStr "a.swift"; "line" := VInt 0 ]}
               : gmap string value) ≤ 3)%nat.
Proof.
  apply (payload_values_well_formed "set_breakpoint"
           (mkFields (Some "a.swift") (Some 0) None None None)).
  reflexivity.
Defined.

(** X8: every validation error names the action. The message of the
    [ValueError] starts with the action, followed by the word requires and
    the command line flags of the fields it asks for. *)
Theorem validation_message_names_action action f e :
  build action f = Raise e →
  ∃ flags, e = ValueError (action +:+ " requires --" +:+ flags) ∧
           (flags = "file and --line" ∨ flags = "expression" ∨
            flags = "thread-id").
Proof.
  destruct (action_cases action) as [-> | [Hin | [-> | [-> | Hnot]]]].
  - rewrite build_set_breakpoint.
    destruct (negb (truthy (file f)) || is_None (line f)); [|discriminate].
    intros [= <-]. exists "file and --line". auto.
  - rewrite (build_expression _ _ Hin).
    destruct (negb (truthy (expression f))); [|discriminate].
    intros [= <-]. exists "expression". auto.
  - rewrite build_variables.
    destruct (is_None (variables_reference f)); discriminate.
  - rewrite build_select_thread.
    destruct (is_None (thread_id f)); [|discriminate].
    intros [= <-]. exists "thread-id". auto.
  - rewrite (build_other _ _ Hnot). discriminate.
Qed.

Lemma validation_message_names_action_witness :
  ∃ flags,
    ValueError "watch_expr requires --expression" =
      ValueError ("watch_expr" +:+ " requires --" +:+ flags) ∧
    (flags = "file and --line" ∨ flags = "expression" ∨
     flags = "thread-id").
Proof.
  apply (validation_message_names_action "watch_expr" no_fields).
  reflexivity.
Defined.

(** ** The URL *)

Lemma string_length_app (s t : string) :
  String.length (s +:+ t) = (String.length s + String.length t)%nat.
Proof. induction s as [|c s IH]; simpl; [done | by rewrite IH]. Qed.

Lemma string_app_inj_r (s1 s2 t : string) :
  s1 +:+ t = s2 +:+ t → s1 = s2.
Proof.
  revert s2. induction s1 as [|c s1 IH]; intros [|d s2] Heq; simpl in Heq.
  - done.
  - apply (f_equal String.length) in Heq.
    rewrite !string_length_app in Heq. simpl in Heq.
    rewrite ?string_length_app in Heq. lia.
  - apply (f_equal String.length) in Heq.
    rewrite !string_length_app in Heq. simpl in Heq.
    rewrite ?string_length_app in Heq. lia.
  - injection Heq as -> Heq. f_equal. by apply IH.
Qed.

Lemma has_colon_app (s t : string) :
  has_colon (s +:+ t) = has_colon s || has_colon t.
Proof.
  induction s as [|c s IH]; simpl; [done|].
  by rewrite IH, orb_assoc.
Qed.

Lemma pretty_N_go_no_colon x s :
  has_colon s = false → has_colon (pretty_N_go x s) = false.
Proof.
  revert s. induction (N.lt_wf_0 x) as [x _ IH]; intros s Hs.
  assert (x = 0 ∨ 0 < x)%N as [-> | Hpos] by lia.
  - by rewrite pretty_N_go_0.
  - rewrite pretty_N_go_step by done. apply IH.
    { by apply N.div_lt. }
    simpl. rewrite Hs. unfold pretty_N_char.
    by repeat case_match.
Qed.

Lemma pretty_Z_no_colon (n : Z) : has_colon (pretty n) = false.
Proof.
  assert (∀ m : N, has_colon (pretty m) = false) as HN.
  { intros m. unfold pretty, pretty_N. case_decide; [done|].
    by apply pretty_N_go_no_colon. }
  destruct n as [|q|q]; [done | apply HN |].
  change (pretty (Z.neg q)) with ("-" +:+ pretty (N.pos q)).
  rewrite has_colon_app, HN. done.
Qed.

(** A string is split in one way only at its last colon. *)
Lemma split_at_last_colon (h1 h2 d1 d2 : string) :
  has_colon d1 = false → has_colon d2 = false →
  h1 +:+ ":" +:+ d1 = h2 +:+ ":" +:+ d2 →
  h1 = h2 ∧ d1 = d2.
Proof.
  intros Hd1 Hd2. revert h2.
  induction h1 as [|c h1 IH]; intros [|c' h2] Heq; simpl in Heq.
  - by simplify_eq.
  - injection Heq as Hc Hd. change ("" +:+ d1) with d1 in Hd. subst.
    rewrite has_colon_app in Hd1. simpl in Hd1.
    by rewrite orb_true_r in Hd1.
  - injection Heq as Hc Hd. change ("" +:+ d2) with d2 in Hd. subst.
    rewrite has_colon_app in Hd2. simpl in Hd2.
    by rewrite orb_true_r in Hd2.
  - injection Heq as -> Heq. apply IH in Heq as [-> ->]. done.
Qed.

(** X9: two endpoints have the same command URL exactly when they have the
    same host and the same port, so requests for different services never
    go to one URL; the timeout plays no part in the URL. *)
Theorem command_url_inj e1 e2 :
  command_url e1 = command_url e2 ↔ host e1 = host e2 ∧ port e1 = port e2.
Proof.
  unfold command_url. split; [|by intros [-> ->]].
  intros Heq. apply (inj (String.app "http://")) in Heq.
  apply split_at_last_colon in Heq as [Hh Hp].
  - split; [done|].
    apply string_app_inj_r in Hp. by apply (inj pretty) in Hp.
  - by rewrite has_colon_app, pretty_Z_no_colon.
  - by rewrite has_colon_app, pretty_Z_no_colon.
Qed.

(** ** The command line entry point *)

(** Every request the function posts is the one built from the payload and
    the endpoint. *)
Lemma posted_request_shape action f ep w rq :
  EPost rq ∈ (run w (ios_debug_command action f ep)).1 →
  ∃ payload, build action f = Ret payload ∧ rq = request_of payload ep.
Proof.
  destruct (build_total action f) as [[m Hb] | [payload Hb]].
  - rewrite (run_build_raises _ _ _ _ _ Hb). simpl.
    intros Hin. by apply elem_of_nil in Hin.
  - rewrite (run_after_build _ _ _ _ _ Hb). simpl. intros Hin.
    exists payload. split; [done|].
    destruct (net w (request_of payload ep)) as [?|resp]; simpl in Hin;
      try destruct (error_status resp); try destruct (loads w (text resp));
      set_solver.
Qed.

(** The process [main] makes of a run of the function. *)
Lemma main_parsed dumps w cl action :
  opt_action cl = Some action →
  ∃ args, parse_args cl = Some args ∧
    ns_action args = action ∧
    ns_host args = default "127.0.0.1" (opt_host cl) ∧
    ns_port args = default 4000 (opt_port cl) ∧
    main dumps w cl =
      match run w (ios_debug_command action (ns_fields args)
                                     (ns_endpoint args)) with
      | (t, inl e) => mkProcess t "" (Uncaught e)
      | (t, inr response) => mkProcess t (dumps response +:+ nl) Returned
      end.
Proof.
  intros Ha. unfold main, parse_args. rewrite Ha.
  eexists. split; [reflexivity|]. simpl. done.
Qed.

(** X10: whatever the command line, every request [main] posts goes to
    [http://HOST:PORT/command], where HOST and PORT are the [--host] and
    [--port] given, or [127.0.0.1] and [4000] when they are not, and waits
    at most the 5.0 seconds of the default: the command line cannot change
    the timeout. *)
Theorem main_requests dumps w cl rq :
  EPost rq ∈ calls (main dumps w cl) →
  url rq = "http://" +:+ default "127.0.0.1" (opt_host cl) +:+ ":" +:+
           pretty (default 4000 (opt_port cl)) +:+ "/command" ∧
  req_timeout rq = 5%float.
Proof.
  destruct (opt_action cl) as [action|] eqn:Ha.
  - destruct (main_parsed dumps w cl action Ha)
      as (args & _ & _ & Hh & Hp & ->).
    destruct (run w (ios_debug_command action (ns_fields args)
                                       (ns_endpoint args)))
      as [t [e|v]] eqn:Hrun; simpl; intros Hin.
    all: assert (EPost rq ∈ (run w (ios_debug_command action (ns_fields args)
                                      (ns_endpoint args))).1) as Hin'
           by (by rewrite Hrun).
    all: apply posted_request_shape in Hin' as (payload & _ & ->).
    all: simpl; unfold command_url; simpl; by rewrite Hh, Hp.
  - unfold main, parse_args. rewrite Ha. simpl.
    intros Hin. by apply elem_of_nil in Hin.
Qed.

Lemma main_requests_witness :
  url (request_of {[ "action" := VStr "variables" ]}
                  (mkEndpoint "localhost" 4000 5%float)) =
    "http://" +:+ "localhost" +:+ ":" +:+ pretty 4000 +:+ "/command" ∧
  req_timeout (request_of {[ "action" := VStr "variables" ]}
                          (mkEndpoint "localhost" 4000 5%float)) = 5%float.
Proof.
  apply (main_requests (λ _, "{}") unreachable_world
           (mkCommandLine (Some "localhost") None (Some "variables")
                          None None None None None)).
  vm_compute. apply list_elem_of_here.
Defined.


(** X12: when the fields of the command line fail the validation, [main]
    contacts no service and writes nothing; the [ValueError] leaves it. *)
Theorem main_validation_failure dumps w cl action e :
  opt_action cl = Some action →
  build action (mkFields (opt_file cl) (opt_line cl) (opt_expression cl)
                         (opt_variables_reference cl) (opt_thread_id cl)) =
    Raise e →
  main dumps w cl = mkProcess [] "" (Uncaught e).
Proof.
  intros Ha Hb. unfold main, parse_args. rewrite Ha.
  unfold ns_fields. simpl. by rewrite (run_build_raises _ _ _ _ _ Hb).
Qed.

Lemma main_validation_failure_witness :
  main (λ _, "{}") ok_world
       (mkCommandLine None None (Some "set_breakpoint")
                      (Some "a.swift") None None None None) =
    mkProcess [] ""
      (Uncaught (ValueError "set_breakpoint requires --file and --line")).
Proof.
  apply (main_validation_failure _ _ _ "set_breakpoint"); reflexivity.
Defined.
